(** * ml_by_hand: ridge regression, lasso regression and Poisson MLE

    A shallow embedding of the three notebooks of the repository:

    - [regularized_regression/ridge_regression.ipynb], class [RidgeRegression];
    - [regularized_regression/lasso.ipynb], class [LassoRegression];
    - [maximum_likelihood_estimation/maximum_likelihood_estimation.ipynb],
      the functions [f], [factorial], [log_likelihood] and the script cell
      that computes [lik_model] and [theta].

    Numbers are the elements of an arbitrary real field [F] (exact
    arithmetic stands for numpy's float64), arrays are MathComp matrices,
    Python exceptions are the [Raise] results of a small state and
    exception monad, and the library routines the notebooks call
    ([np.linalg.inv], [np.random.rand], [np.vectorize],
    [scipy.optimize.minimize]) are modelled by their contract. *)

From HB Require Import structures.
From mathcomp Require Import boot order algebra.

Set Implicit Arguments.
Unset Strict Implicit.
Unset Printing Implicit Defensive.

Import GRing.Theory Num.Theory Order.Theory.
Local Open Scope ring_scope.

Declare Scope py_scope.
Delimit Scope py_scope with py.

(** ** The Python runtime the notebooks run in *)

Module Python.
Section Runtime.

Variable F : realFieldType.

(** The exceptions that matter here.  [LinAlgError] is what
    [np.linalg.inv] raises on a singular matrix (the specification calls
    it SingularMatrixError); [ValueError] is Python's error for an
    argument of the right type and a wrong value (the specification's
    InvalidArgumentError); [AttributeError] is raised when [self.w] is
    read before it was ever assigned.  [ConvergenceError] belongs to the
    specification's taxonomy only: it carries the final objective value
    and the iteration count. *)
Inductive exn : Type :=
  | LinAlgError
  | ValueError
  | AttributeError
  | ConvergenceError of F & nat.

Inductive result (A : Type) : Type :=
  | Ok of A
  | Raise of exn.

Arguments Raise {A} e.

Definition bindR A B (r : result A) (k : A -> result B) : result B :=
  match r with
  | Ok a => k a
  | Raise e => Raise e
  end.

(** The state of numpy's global generator, seen as the stream of the
    uniform draws of [[0, 1)] it is going to produce. *)
Definition RandomState : Type := nat -> F.

(** Statements run in the global state and either return or raise. *)
Definition Py (A : Type) : Type := RandomState -> result A * RandomState.

Definition ret A (a : A) : Py A := fun g => (Ok a, g).

Definition lift A (r : result A) : Py A := fun g => (r, g).

Definition bind A B (m : Py A) (k : A -> Py B) : Py B :=
  fun g =>
    match m g with
    | (Ok a, g') => k a g'
    | (Raise e, g') => (Raise e, g')
    end.

(** [np.random.rand(p)]: the next [p] draws, consumed from the stream. *)
Definition rand (p : nat) : Py 'cV[F]_p :=
  fun g => (Ok (\col_(i < p) g i), fun k => g (p + k)%N).

(** [np.linalg.inv(C)]: the inverse, or [LinAlgError] when [C] is
    singular.  This is the routine in exact arithmetic: on float64 numpy
    decides by the pivots of an LU factorisation, which can vanish on a
    matrix that is invertible before rounding and be non-zero on a
    singular one. *)
Definition inv (p : nat) (C : 'M[F]_p) : result 'M[F]_p :=
  if C \in unitmx then Ok (invmx C) else Raise LinAlgError.

(** A one-dimensional array together with its length, as an attribute
    holds it. *)
Definition ndarray : Type := {p : nat & 'cV[F]_p}.

(** [X.dot(w)] for a stored vector [w]: the product when the number of
    columns of [X] is the length of [w], [ValueError] (shapes not aligned)
    otherwise. *)
Definition dot (n q : nat) (X : 'M[F]_(n, q)) (v : ndarray) : result 'cV[F]_n :=
  let: existT p w := v in
  match q =P p with
  | ReflectT e => Ok (castmx (erefl n, e) X *m w)
  | ReflectF _ => Raise ValueError
  end.

(** An estimator object: its only attribute is [w], absent until the
    first [fit]. *)
Record object : Type := Object { w : option ndarray }.

(** [self.w = v] *)
Definition set_w (self : object) (p : nat) (v : 'cV[F]_p) : object :=
  Object (Some (existT _ p v)).

(** [self.w] *)
Definition get_w (self : object) : result ndarray :=
  if w self is Some v then Ok v else Raise AttributeError.

End Runtime.

Arguments LinAlgError {F}.
Arguments ValueError {F}.
Arguments AttributeError {F}.
Arguments Raise {F A} e.
Arguments Ok {F A} _.

End Python.

Import Python.

Notation "x <- m ;; k" := (bind m (fun x => k))
  (at level 100, m at next level, right associativity) : py_scope.

(** ** ridge_regression.ipynb *)

Module RidgeRegression.
Section Class.

Variable F : realFieldType.
Variables (n p : nat).

(** [C = l * eye + X.T.dot(X)], with [eye = np.eye(p)]; the matrix is
    given a definition of its own, for the statements below.  The sum and
    the products are those of the field: no rounding, no absorption of a
    small [l]. *)
Definition C (X : 'M[F]_(n, p)) (l : F) : 'M[F]_p :=
  let eye : 'M[F]_p := 1%:M in
  l *: eye + X^T *m X.

(** [def fit(self, X, y, l=1)]: [self.w = np.linalg.inv(C).dot(X.T.dot(y))].
    The result is the updated object; when [inv] raises, the assignment
    does not happen. *)
Definition fit (self : object F) (X : 'M[F]_(n, p)) (y : 'cV[F]_n) (l : F)
  : Py F (object F) :=
  (Cinv <- lift (inv (C X l)) ;;
   ret (set_w self (Cinv *m (X^T *m y))))%py.

(** [def predict(self, X)]: [return X.dot(self.w)] *)
Definition predict (self : object F) (X : 'M[F]_(n, p)) : result F 'cV[F]_n :=
  bindR (get_w self) (fun v => dot X v).

End Class.
End RidgeRegression.

(** ** scipy.optimize.minimize *)

Module Scipy.
Section Optimize.

Variable F : realFieldType.
Variable p : nat.

(** The fields of [OptimizeResult] the notebooks and the specification
    talk about: the solution [x], the [success] flag, the final objective
    value [fun] and the iteration count [nit]. *)
Record OptimizeResult : Type :=
  { x : 'cV[F]_p; success : bool; fun_ : F; nit : nat }.

(** What an optimization method does after it was handed a problem: it
    stops with a result, or asks for the objective at a point of its
    choice and goes on from the value it gets.  The tree is finite: every
    method has an iteration cap. *)
Inductive optimizer : Type :=
  | Stop of OptimizeResult
  | Eval of 'cV[F]_p & (F -> optimizer).

(** Running an optimizer against an objective: the points the objective
    was evaluated at, in order, and the outcome.  An exception of the
    objective ends the run and propagates. *)
Fixpoint run (func : 'cV[F]_p -> result F F) (o : optimizer)
  : seq 'cV[F]_p * result F OptimizeResult :=
  match o with
  | Stop r => ([::], Ok r)
  | Eval pt k =>
      match func pt with
      | Ok v => let: (tr, r) := run func (k v) in (pt :: tr, r)
      | Raise e => ([:: pt], Raise e)
      end
  end.

(** The [bounds] argument: a [(min, max)] pair per coordinate, [None] for
    a side without bound. *)
Definition Bounds : Type := 'I_p -> option F * option F.

Definition in_bounds (b : Bounds) (pt : 'cV[F]_p) : bool :=
  [forall i, (if (b i).1 is Some lo then lo <= pt i 0 else true)
             && (if (b i).2 is Some hi then pt i 0 <= hi else true)].

(** A method ([BFGS], [L-BFGS-B], ...): from the [bounds] argument, the
    initial guess and the objective's value there, the rest of the run. *)
Definition method : Type := option Bounds -> 'cV[F]_p -> F -> optimizer.

(** [minimize(fun, x0, args, method=..., bounds=...)]: the objective is
    evaluated at [x0] first, then the method decides. *)
Definition minimize (func : 'cV[F]_p -> result F F) (x0 : 'cV[F]_p)
    (meth : method) (bounds : option Bounds)
  : seq 'cV[F]_p * result F OptimizeResult :=
  run func (Eval x0 (meth bounds x0)).

(** The contract of a method that supports [bounds]: when bounds are
    given, it neither evaluates the objective outside of them nor returns
    a solution outside of them. *)
Fixpoint stays_within (b : Bounds) (o : optimizer) : Prop :=
  match o with
  | Stop r => in_bounds b (x r)
  | Eval pt k => in_bounds b pt /\ forall v, stays_within b (k v)
  end.

Definition honours_bounds (meth : method) : Prop :=
  forall b x0 f0, in_bounds b x0 -> stays_within b (meth (Some b) x0 f0).

End Optimize.
End Scipy.

(** ** lasso.ipynb *)

Module LassoRegression.
Section Class.

Variable F : realFieldType.

(** [minimize] is called without [method], [bounds] or constraints: scipy
    picks BFGS. *)
Variable BFGS : forall p : nat, Scipy.method F p.

Variables (n p : nat).

(** [func = lambda w,y,x,lam: ((y - x.dot(w))**2).sum() + lam*w.sum()] *)
Definition func (w : 'cV[F]_p) (y : 'cV[F]_n) (x : 'M[F]_(n, p)) (lam : F) : F :=
  \sum_i ((y - x *m w) i 0) ^+ 2 + lam * \sum_j w j 0.

(** [def fit(self, X, y, lam=1)]:
    [w0 = np.random.rand(p)];
    [self.w = minimize(func, w0, args=(y,X,lam))["x"]] *)
Definition fit (self : object F) (X : 'M[F]_(n, p)) (y : 'cV[F]_n) (lam : F)
  : Py F (object F) :=
  (w0 <- rand p ;;
   res <- lift (Scipy.minimize (fun w => Ok (func w y X lam)) w0 (@BFGS p) None).2 ;;
   ret (set_w self (Scipy.x res)))%py.

(** [def predict(self, X)]: [return X.dot(self.w)] *)
Definition predict (self : object F) (X : 'M[F]_(n, p)) : result F 'cV[F]_n :=
  bindR (get_w self) (fun v => dot X v).

End Class.
End LassoRegression.

(** ** maximum_likelihood_estimation.ipynb *)

Module MaximumLikelihoodEstimation.
Section Notebook.

Variable F : realFieldType.

(** [np.log], total on floats: no exception at or below zero. *)
Variable log : F -> F.

(** [method='L-BFGS-B'] *)
Variable L_BFGS_B : Scipy.method F 1.

(** [def f(x): return np.math.factorial(x)] *)
Definition f (x : nat) : nat := x`!.

(** [factorial = np.vectorize(f)].  No [otypes] is given, so numpy finds
    the output type by calling [f] on the first element of the input, and
    raises [ValueError] (cannot call `vectorize` on size 0 inputs unless
    `otypes` is set) when there is none.  The factorials are natural
    numbers without bound: they are those of the program as long as they
    fit the 64-bit integers numpy settles on, that is for counts up to
    [20]. *)
Definition factorial (x : seq nat) : result F (seq nat) :=
  if x is [::] then Raise ValueError else Ok [seq f k | k <- x].

(** [log_likelihood = lambda theta,x: len(x)*theta - np.sum(x)*np.log(theta)
                                      + np.sum(np.log(factorial(x)))]
    [theta] is the one-element array the optimizer passes. *)
Definition log_likelihood (theta : 'cV[F]_1) (x : seq nat) : result F F :=
  bindR (factorial x) (fun fx =>
    Ok ((size x)%:R * theta 0 0
        - (\sum_(k <- x) k)%:R * log (theta 0 0)
        + \sum_(k <- fx) log k%:R)).

(** [lik_model = minimize(log_likelihood, np.array([3]),
                          (goal_data.Total.values), method='L-BFGS-B')]
    with the column [Total] of the data as argument. *)
Definition lik_model (Total : seq nat)
  : seq 'cV[F]_1 * result F (Scipy.OptimizeResult F 1) :=
  Scipy.minimize (fun theta => log_likelihood theta Total)
                 (const_mx 3%:R) L_BFGS_B None.

(** [theta = lik_model["x"][0]] *)
Definition theta (Total : seq nat) : result F F :=
  bindR (lik_model Total).2 (fun res => Ok (Scipy.x res 0 0)).

End Notebook.
End MaximumLikelihoodEstimation.

(** ** The specification: the lasso objective and the statements checked *)

Module Specification.
Section Lasso.

Variable F : realFieldType.
Variables (n p : nat).

(** The L1 norm: the sum of the absolute values of the coefficients. *)
Definition norm1 (w : 'cV[F]_p) : F := \sum_j `|w j 0|.

(** [f(w) = |y - Xw|^2 + lambda * |w|_1] *)
Definition penalized_least_squares
    (w : 'cV[F]_p) (y : 'cV[F]_n) (X : 'M[F]_(n, p)) (lam : F) : F :=
  \sum_i ((y - X *m w) i 0) ^+ 2 + lam * norm1 w.

End Lasso.

(** Statements of the specification that the notebooks are checked
    against below, in the terms of the embedding. *)

(** Negative [lambda] is rejected with an invalid-argument error, by the
    ridge estimator and by the lasso estimator. *)
Definition ridge_rejects_negative_lambda : Prop :=
  forall (F : realFieldType) (n p : nat) (self : object F)
         (X : 'M[F]_(n, p)) (y : 'cV[F]_n) (l : F) (g : RandomState F),
    l < 0 -> (RidgeRegression.fit self X y l g).1 = Raise ValueError.

Definition lasso_rejects_negative_lambda : Prop :=
  forall (F : realFieldType) (BFGS : forall p, Scipy.method F p) (n p : nat)
         (self : object F) (X : 'M[F]_(n, p)) (y : 'cV[F]_n) (lam : F)
         (g : RandomState F),
    lam < 0 -> (LassoRegression.fit BFGS self X y lam g).1 = Raise ValueError.

(** A run of the optimizer that reports non-success surfaces as a
    [ConvergenceError] with the final objective value and the iteration
    count. *)
Definition lasso_raises_on_nonconvergence : Prop :=
  forall (F : realFieldType) (BFGS : forall p, Scipy.method F p) (n p : nat)
         (self : object F) (X : 'M[F]_(n, p)) (y : 'cV[F]_n) (lam : F)
         (g : RandomState F) (res : Scipy.OptimizeResult F p),
    (Scipy.minimize (fun w => Ok (LassoRegression.func w y X lam))
       (\col_(i < p) g i) (@BFGS p) None).2 = Ok res ->
    Scipy.success res = false ->
    (LassoRegression.fit BFGS self X y lam g).1
    = Raise (ConvergenceError (Scipy.fun_ res) (Scipy.nit res)).

Definition mle_raises_on_nonconvergence
    (F : realFieldType) (log : F -> F) : Prop :=
  forall (L_BFGS_B : Scipy.method F 1) (Total : seq nat)
         (res : Scipy.OptimizeResult F 1),
    (MaximumLikelihoodEstimation.lik_model log L_BFGS_B Total).2 = Ok res ->
    Scipy.success res = false ->
    MaximumLikelihoodEstimation.theta log L_BFGS_B Total
    = Raise (ConvergenceError (Scipy.fun_ res) (Scipy.nit res)).

(** The rate stays in the open interval of the positive numbers: the
    negative log-likelihood is never evaluated at [theta <= 0], whatever
    bounds-honouring method runs the optimization. *)
Definition theta_stays_positive (F : realFieldType) (log : F -> F) : Prop :=
  forall (L_BFGS_B : Scipy.method F 1) (Total : seq nat),
    Scipy.honours_bounds L_BFGS_B ->
    all (fun pt : 'cV[F]_1 => 0 < pt 0 0)
        (MaximumLikelihoodEstimation.lik_model log L_BFGS_B Total).1.

(** The vector a [fit] produced is never replaced: after a later [fit] on
    the same estimator, [w] is still the vector of the first one. *)
Definition ridge_w_immutable : Prop :=
  forall (F : realFieldType) (n p : nat) (self s1 s2 : object F)
         (X X' : 'M[F]_(n, p)) (y y' : 'cV[F]_n) (l l' : F)
         (g g1 g2 : RandomState F),
    RidgeRegression.fit self X y l g = (Ok s1, g1) ->
    RidgeRegression.fit s1 X' y' l' g1 = (Ok s2, g2) ->
    w s2 = w s1.

(** The singular-matrix failure of the ridge estimator occurs exactly when
    [lambda = 0] and [X^T X] is singular. *)
Definition ridge_fails_only_at_0 : Prop :=
  forall (F : realFieldType) (n p : nat) (self : object F)
         (X : 'M[F]_(n, p)) (y : 'cV[F]_n) (l : F) (g : RandomState F),
    (RidgeRegression.fit self X y l g).1 = Raise LinAlgError
    <-> l = 0 /\ X^T *m X \notin unitmx.

Definition lasso_w_immutable : Prop :=
  forall (F : realFieldType) (BFGS : forall p, Scipy.method F p) (n p : nat)
         (self s1 s2 : object F) (X X' : 'M[F]_(n, p)) (y y' : 'cV[F]_n)
         (lam lam' : F) (g g1 g2 : RandomState F),
    LassoRegression.fit BFGS self X y lam g = (Ok s1, g1) ->
    LassoRegression.fit BFGS s1 X' y' lam' g1 = (Ok s2, g2) ->
    w s2 = w s1.

End Specification.


(** ** RidgeRegression.fit, whatever np.linalg.inv does *)

Module RidgeRegressionLib.
Section Class.

Variable F : realFieldType.

(** [np.linalg.inv], left open: any routine that returns a matrix or
    raises, as numpy's does on float64. *)
Variable inv : forall p : nat, 'M[F]_p -> result F 'M[F]_p.

Variables (n p : nat).

(** [def fit(self, X, y, l=1)], line by line:
    [eye = np.eye(p)]; [C = l * eye + X.T.dot(X)];
    [self.w = np.linalg.inv(C).dot(X.T.dot(y))] *)
Definition fit (self : object F) (X : 'M[F]_(n, p)) (y : 'cV[F]_n) (l : F)
  : Py F (object F) :=
  let eye : 'M[F]_p := 1%:M in
  let C := l *: eye + X^T *m X in
  (Cinv <- lift (inv C) ;;
   ret (set_w self (Cinv *m (X^T *m y))))%py.

End Class.
End RidgeRegressionLib.

(** ** ridge_regression.ipynb: the cells around the class *)

Module RidgeNotebook.
Section Cells.

Variable F : realFieldType.

(** A row of the data frame: the explanatory columns and [SalePrice]. *)
Definition row (p : nat) : Type := ('rV[F]_p * F)%type.

(** [msk = np.random.rand(len(df)) < 0.8] *)
Definition msk (n : nat) : Py F (seq bool) :=
  (u <- rand n ;;
   ret [seq u i 0 < 8%:R / 10%:R | i <- enum 'I_n])%py.

(** The four arrays of the split cell. *)
Record split (p : nat) : Type :=
  Split { X_train : seq 'rV[F]_p; X_test : seq 'rV[F]_p;
          y_train : seq F; y_test : seq F }.

(** [X_train,X_test = df.drop("SalePrice", axis=1)[msk].as_matrix(),
                       df.drop("SalePrice", axis=1)[~msk].as_matrix()]
    [y_train, y_test = df["SalePrice"][msk].as_matrix(),
                       df["SalePrice"][~msk].as_matrix()] *)
Definition train_test (p : nat) (df : seq (row p)) : Py F (split p) :=
  (m <- msk (size df) ;;
   let X := [seq r.1 | r <- df] in
   let y := [seq r.2 | r <- df] in
   ret (Split (mask m X) (mask [seq ~~ b | b <- m] X)
              (mask m y) (mask [seq ~~ b | b <- m] y)))%py.

End Cells.
End RidgeNotebook.

(** ** Concrete data and optimizers *)

Module Examples.

(** The one-feature data set [X = [[1],[2],[3]]], [y = [1,2,3]]. *)
Definition X123 : 'M[rat]_(3, 1) := \matrix_(i, j) (i.+1)%:R.
Definition y123 : 'cV[rat]_3 := \col_i (i.+1)%:R.

(** One observation, one feature: [X = [[1]]], [y = [0]], [y = [1]],
    [y = [2]] and the coefficient vectors [w = [-1]] and [w = [-1/2]]. *)
Definition X1 : 'M[rat]_(1, 1) := const_mx 1.
Definition y0 : 'cV[rat]_1 := const_mx 0.
Definition y1 : 'cV[rat]_1 := const_mx 1.
Definition y2 : 'cV[rat]_1 := const_mx 2%:R.
Definition w_neg : 'cV[rat]_1 := const_mx (-1).
Definition w_half : 'cV[rat]_1 := const_mx (- 2%:R^-1).

(** A fresh estimator, and two states of the random generator: all
    draws [0], and draws alternating between [0] and [1/2]. *)
Definition fresh : object rat := Object None.
Definition zeros : RandomState rat := fun=> 0.
Definition flip : RandomState rat := fun k => if odd k then 2%:R^-1 else 0.

(** A stand-in for [np.log] on the rationals, where only the shape of a
    run matters and not the values of the objective. *)
Definition log0 : rat -> rat := fun=> 0.

(** The goals of the specification's scenario. *)
Definition counts : seq nat := [:: 1; 0; 4; 1; 5]%N.

Section Methods.

Variable F : realFieldType.

(** A method that finds its starting point good enough and reports
    success. *)
Definition stay (p : nat) : Scipy.method F p :=
  fun _ x0 f0 =>
    Scipy.Stop {| Scipy.x := x0; Scipy.success := true;
                  Scipy.fun_ := f0; Scipy.nit := 0 |}.

(** A method that gives up at once and says so. *)
Definition abandon (p : nat) : Scipy.method F p :=
  fun _ x0 f0 =>
    Scipy.Stop {| Scipy.x := x0; Scipy.success := false;
                  Scipy.fun_ := f0; Scipy.nit := 0 |}.

(** A method of one variable that tries the point [t] when it may: always
    without bounds, and with bounds when [t] lies within them. It keeps
    the better of the two points. *)
Definition probe (t : F) : Scipy.method F 1 :=
  fun bounds x0 f0 =>
    let try :=
      Scipy.Eval (const_mx t) (fun ft =>
        Scipy.Stop {| Scipy.x := if ft < f0 then const_mx t else x0;
                      Scipy.success := true;
                      Scipy.fun_ := Num.min ft f0; Scipy.nit := 1 |}) in
    let keep :=
      Scipy.Stop {| Scipy.x := x0; Scipy.success := true;
                    Scipy.fun_ := f0; Scipy.nit := 0 |} in
    match bounds with
    | None => try
    | Some b => if Scipy.in_bounds b (const_mx t) then try else keep
    end.

End Methods.

End Examples.

Import Examples.

(** * Properties *)

(** ** Linear algebra behind the ridge solve *)

Section Gram.

Variable F : realFieldType.

(** The entry of [u *m u^T] is the sum of the squares of [u]. *)
Lemma sqnorm_rowE (m : nat) (u : 'rV[F]_m) :
  (u *m u^T) 0 0 = \sum_j (u 0 j) ^+ 2.
Proof. by rewrite mxE; apply: eq_bigr => j _; rewrite mxE expr2. Qed.

Lemma sqnorm_row_ge0 (m : nat) (u : 'rV[F]_m) : 0 <= (u *m u^T) 0 0.
Proof. by rewrite sqnorm_rowE; apply: sumr_ge0 => j _; apply: sqr_ge0. Qed.

Lemma sqnorm_row_eq0 (m : nat) (u : 'rV[F]_m) : (u *m u^T) 0 0 = 0 -> u = 0.
Proof.
rewrite sqnorm_rowE => /psumr_eq0P H.
apply/rowP => j; rewrite mxE.
have /eqP := H (fun j _ => sqr_ge0 (u 0 j)) j isT.
by rewrite sqrf_eq0 => /eqP.
Qed.

(** The quadratic form of [C]: [v C v^T = l |v|^2 + |v X^T|^2]. *)
Lemma quadform_C (n p : nat) (X : 'M[F]_(n, p)) (l : F) (v : 'rV[F]_p) :
  (v *m RidgeRegression.C X l *m v^T) 0 0
  = l * (v *m v^T) 0 0 + ((v *m X^T) *m (v *m X^T)^T) 0 0.
Proof.
rewrite /RidgeRegression.C /= mulmxDr mulmxDl mxE; congr (_ + _).
  by rewrite -scalemxAr mulmx1 -scalemxAl mxE.
by rewrite trmx_mul trmxK !mulmxA.
Qed.

(** [X^T X] is positive semidefinite, so [l I + X^T X] is positive
    definite, hence invertible, as soon as [0 < l]. *)
Lemma C_unit (n p : nat) (X : 'M[F]_(n, p)) (l : F) :
  0 < l -> RidgeRegression.C X l \in unitmx.
Proof.
move=> l_gt0; rewrite -row_free_unit -kermx_eq0.
apply/rowV0P => v /sub_kermxP vC0.
have := quadform_C X l v; rewrite vC0 mul0mx mxE => /esym/eqP.
rewrite paddr_eq0 ?sqnorm_row_ge0 ?mulr_ge0 ?(ltW l_gt0) ?sqnorm_row_ge0 //.
case/andP; rewrite mulf_eq0 (gt_eqF l_gt0) /= => /eqP v0 _.
exact: sqnorm_row_eq0.
Qed.

(** At [l = 0] the matrix is the Gram matrix [X^T X] itself. *)
Lemma C_0 (n p : nat) (X : 'M[F]_(n, p)) : RidgeRegression.C X 0 = X^T *m X.
Proof. by rewrite /RidgeRegression.C /= scale0r add0r. Qed.

End Gram.

(** ** RidgeRegression *)

Section RidgeFacts.

Variable F : realFieldType.
Variables (n p : nat).
Implicit Types (self : object F) (X : 'M[F]_(n, p)) (y : 'cV[F]_n) (l : F).
Implicit Types (g : RandomState F).

Local Notation C := (@RidgeRegression.C F n p).
Local Notation fit := (@RidgeRegression.fit F n p).

Lemma fit_unit self X y l g :
  C X l \in unitmx ->
  fit self X y l g = (Ok (set_w self (invmx (C X l) *m (X^T *m y))), g).
Proof. by rewrite /RidgeRegression.fit /bind /lift /inv /ret => ->. Qed.

Lemma fit_singular self X y l g :
  C X l \notin unitmx -> fit self X y l g = (Raise LinAlgError, g).
Proof.
by rewrite /RidgeRegression.fit /bind /lift /inv => /negbTE ->.
Qed.

End RidgeFacts.

Section RidgeClaims.

Variable F : realFieldType.
Variables (n p : nat).
Implicit Types (self : object F) (X : 'M[F]_(n, p)) (y : 'cV[F]_n) (l : F).
Implicit Types (g : RandomState F).

Local Notation C := (@RidgeRegression.C F n p).
Local Notation fit := (@RidgeRegression.fit F n p).

(** C8. [RidgeRegression.fit] is deterministic: two calls on the same
    [X], [y] and [l], whatever the objects they are called on and whatever
    the states of the global random generator, leave the generator
    untouched and either both raise the same exception or both store the
    same vector [w]. *)
Theorem ridge_fit_deterministic self1 self2 X y l g1 g2 :
  [/\ (fit self1 X y l g1).2 = g1,
      (fit self2 X y l g2).2 = g2
    & match (fit self1 X y l g1).1, (fit self2 X y l g2).1 with
      | Ok s1, Ok s2 => w s1 = w s2
      | Raise e1, Raise e2 => e1 = e2
      | _, _ => False
      end].
Proof.
case: (boolP (C X l \in unitmx)) => Cu.
  by rewrite !fit_unit.
by rewrite !fit_singular.
Qed.

End RidgeClaims.

(** ** The solve in exact arithmetic

    What follows holds for the field operations and the exact inverse of
    the embedding. It is not a statement about the float64 results of the
    program, where a small [l] can be absorbed by [X^T X] and the
    factorisation can miss or invent a zero pivot. *)

Section RidgeExact.

Variable F : realFieldType.
Variables (n p : nat).
Implicit Types (self : object F) (X : 'M[F]_(n, p)) (y : 'cV[F]_n) (l : F).
Implicit Types (g : RandomState F).

Local Notation fit := (@RidgeRegression.fit F n p).

(** Whenever [l I + X^T X] is invertible, the vector [fit] stores is
    [(l I + X^T X)^-1 X^T y], the only solution of the regularized normal
    equations. *)
Lemma ridge_fit_normal_equations self X y l g :
  l *: 1%:M + X^T *m X \in unitmx ->
  exists (s : object F) (v : 'cV[F]_p),
    [/\ fit self X y l g = (Ok s, g),
        w s = Some (existT _ p v),
        v = invmx (l *: 1%:M + X^T *m X) *m (X^T *m y),
        (l *: 1%:M + X^T *m X) *m v = X^T *m y
      & forall v' : 'cV[F]_p,
          (l *: 1%:M + X^T *m X) *m v' = X^T *m y -> v' = v].
Proof.
move=> Cu; exists (set_w self (invmx (l *: 1%:M + X^T *m X) *m (X^T *m y))).
exists (invmx (l *: 1%:M + X^T *m X) *m (X^T *m y)); split=> //.
- exact: fit_unit.
- by rewrite mulKVmx.
- by move=> v' <-; rewrite mulKmx.
Qed.

(** For [0 <= l], [fit] raises exactly when [l = 0] and [X^T X] is
    singular, and for [0 < l] the matrix [l I + X^T X] is positive
    definite, so that [fit] returns. *)
Lemma ridge_fit_singular_iff self X y l g :
  0 <= l ->
  ((fit self X y l g).1 = Raise LinAlgError
     <-> l = 0 /\ X^T *m X \notin unitmx)
  /\ (0 < l ->
      RidgeRegression.C X l \in unitmx
      /\ exists v : 'cV[F]_p, fit self X y l g = (Ok (set_w self v), g)).
Proof.
rewrite le_eqVlt => /orP[/eqP l0|l_gt0]; split.
- rewrite -l0; split.
    case: (boolP (RidgeRegression.C X 0 \in unitmx)) => [Cu|].
      by rewrite fit_unit.
    by rewrite C_0 => Xs _; split.
  by case=> _ Xs; rewrite fit_singular // C_0.
- by rewrite -l0 ltxx.
- split; first by rewrite fit_unit ?C_unit.
  by case=> l0; rewrite l0 ltxx in l_gt0.
- move=> _; split; first exact: C_unit.
  by eexists; apply: fit_unit; apply: C_unit.
Qed.

End RidgeExact.

(** ** Running an optimizer *)

Section OptimizerFacts.

Variable F : realFieldType.
Variable p : nat.
Implicit Types (o : Scipy.optimizer F p) (func : 'cV[F]_p -> result F F).

(** A run only sees the objective through its values. *)
Lemma eq_run func1 func2 o :
  func1 =1 func2 -> Scipy.run func1 o = Scipy.run func2 o.
Proof.
move=> eqf; elim: o => [r|pt k IH] //=.
by rewrite eqf; case: (func2 pt) => // v; rewrite IH.
Qed.

(** Against an objective that never raises, a run ends with a result. *)
Lemma run_total (h : 'cV[F]_p -> F) o :
  exists res, (Scipy.run (fun w => Ok (h w)) o).2 = Ok res.
Proof.
elim: o => [r|pt k IH] /=; first by exists r.
by case: (IH (h pt)) => res; case: (Scipy.run _ _) => tr r /= ->; exists res.
Qed.

Lemma minimize_total (h : 'cV[F]_p -> F) x0 meth bounds :
  exists res, (Scipy.minimize (fun w => Ok (h w)) x0 meth bounds).2 = Ok res.
Proof. exact: run_total. Qed.

(** The first evaluation of [minimize] is at the initial guess. *)
Lemma minimize_starts_at_x0 func x0 meth bounds :
  exists tr, (Scipy.minimize func x0 meth bounds).1 = x0 :: tr.
Proof.
rewrite /Scipy.minimize /=; case: (func x0) => [v|e]; last by exists [::].
by case: (Scipy.run _ _) => tr r; exists tr.
Qed.

(** An exception of the objective at the initial guess is the outcome of
    [minimize]. *)
Lemma minimize_raises func x0 meth bounds e :
  func x0 = Raise e -> (Scipy.minimize func x0 meth bounds).2 = Raise e.
Proof. by rewrite /Scipy.minimize /= => ->. Qed.

End OptimizerFacts.

(** ** Stored vectors and predictions *)

Section ObjectFacts.

Variable F : realFieldType.

Lemma dot_existT (n p : nat) (X : 'M[F]_(n, p)) (v : 'cV[F]_p) :
  dot X (existT _ p v) = Ok (X *m v).
Proof.
rewrite /dot; case: eqP => // e.
by rewrite (eq_irrelevance e (erefl p)) castmx_id.
Qed.

Lemma ridge_predict_set_w (n p : nat) (self : object F)
    (X : 'M[F]_(n, p)) (v : 'cV[F]_p) :
  RidgeRegression.predict (set_w self v) X = Ok (X *m v).
Proof. exact: dot_existT. Qed.

Lemma lasso_predict_set_w (n p : nat) (self : object F)
    (X : 'M[F]_(n, p)) (v : 'cV[F]_p) :
  LassoRegression.predict (set_w self v) X = Ok (X *m v).
Proof. exact: dot_existT. Qed.

(** Two objects with the same [w] hold the same vector. *)
Lemma set_w_inj (p : nat) (s1 s2 : object F) (v1 v2 : 'cV[F]_p) :
  w (set_w s1 v1) = w (set_w s2 v2) -> v1 = v2.
Proof.
move=> eqw.
have: RidgeRegression.predict (set_w s1 v1) (1%:M : 'M[F]_p)
      = RidgeRegression.predict (set_w s2 v2) 1%:M.
  by rewrite /RidgeRegression.predict /get_w eqw.
by rewrite !ridge_predict_set_w !mul1mx; case.
Qed.

End ObjectFacts.

(** ** LassoRegression *)

Section LassoFacts.

Variable F : realFieldType.
Variable BFGS : forall p : nat, Scipy.method F p.
Variables (n p : nat).
Implicit Types (self : object F) (X : 'M[F]_(n, p)) (y : 'cV[F]_n) (lam : F).
Implicit Types (g : RandomState F).

(** [fit] stores whatever solution the run from the random start ends
    with, and moves the generator [p] draws on. *)
Lemma lasso_fitE self X y lam g res :
  (Scipy.minimize (fun w => Ok (LassoRegression.func w y X lam))
     (\col_(i < p) g i) (@BFGS p) None).2 = Ok res ->
  LassoRegression.fit BFGS self X y lam g
  = (Ok (set_w self (Scipy.x res)), fun k => g (p + k)%N).
Proof.
by rewrite /LassoRegression.fit /bind /rand /lift /ret => ->.
Qed.

Lemma lasso_fit_returns self X y lam g :
  exists res,
    (Scipy.minimize (fun w => Ok (LassoRegression.func w y X lam))
       (\col_(i < p) g i) (@BFGS p) None).2 = Ok res
    /\ LassoRegression.fit BFGS self X y lam g
       = (Ok (set_w self (Scipy.x res)), fun k => g (p + k)%N).
Proof.
have [res Hres] := minimize_total
  (fun w => LassoRegression.func w y X lam) (\col_(i < p) g i) (@BFGS p) None.
by exists res; split=> //; apply: lasso_fitE.
Qed.

(** The objective of the code and the penalized least squares of the
    specification agree on coefficient vectors without negative entry. *)
Lemma func_nonneg (w : 'cV[F]_p) y X lam :
  (forall j, 0 <= w j 0) ->
  LassoRegression.func w y X lam
  = Specification.penalized_least_squares w y X lam.
Proof.
move=> w_ge0; rewrite /LassoRegression.func.
rewrite /Specification.penalized_least_squares /Specification.norm1.
by congr (_ + _ * _); apply: eq_bigr => j _; rewrite ger0_norm.
Qed.

End LassoFacts.

(** C1. The objective [LassoRegression.fit] hands to the optimizer is not
    the penalized least squares [|y - Xw|^2 + lam |w|_1]: its penalty is
    the plain sum of the coefficients.  At [X = [[1]]], [y = [0]],
    [lam = 1] and [w = [-1]] the code's objective is [0] and the L1
    objective is [2]; the L1 objective is least at [w = [0]], while the
    code's objective is lower at [w = [-1/2]] than at [w = [0]]. *)
Theorem lasso_objective_linear_penalty :
  [/\ LassoRegression.func w_neg y0 X1 1 = 0,
      Specification.penalized_least_squares w_neg y0 X1 1 = 2,
      forall w : 'cV[rat]_1,
        Specification.penalized_least_squares 0 y0 X1 1
        <= Specification.penalized_least_squares w y0 X1 1
    & LassoRegression.func w_half y0 X1 1 < LassoRegression.func 0 y0 X1 1].
Proof.
rewrite /LassoRegression.func /Specification.penalized_least_squares.
rewrite /Specification.norm1; split.
- by rewrite !big_ord1 !mxE big_ord1 !mxE; ring.
- by rewrite !big_ord1 !mxE big_ord1 !mxE normrN1; ring.
- move=> w; rewrite !big_ord1 !mxE !big_ord1 !mxE.
  by rewrite normr0 !mulr0 subr0 addr_ge0 ?sqr_ge0 ?mulr_ge0.
- rewrite !big_ord1 !mxE !big_ord1 !mxE.
  by lra.
Qed.

(** ** Ridge regression on a single feature *)

Section OneFeature.

Variable F : realFieldType.
Variable n : nat.
Implicit Types (X : 'M[F]_(n, 1)) (y : 'cV[F]_n) (l : F).

Lemma C_1feature X l :
  RidgeRegression.C X l = (l + \sum_i (X i 0) ^+ 2)%:M.
Proof.
apply/matrixP => i j; rewrite !ord1 /RidgeRegression.C /= !mxE eqxx mulr1n.
by rewrite mulr1; congr (_ + _); apply: eq_bigr => k _; rewrite !mxE expr2.
Qed.

Lemma moment_1feature X y : X^T *m y = (\sum_i X i 0 * y i 0)%:M.
Proof.
apply/matrixP => i j; rewrite !ord1 !mxE eqxx mulr1n.
by apply: eq_bigr => k _; rewrite !mxE.
Qed.

Lemma C_1feature_unit X l :
  (RidgeRegression.C X l \in unitmx) = (l + \sum_i (X i 0) ^+ 2 != 0).
Proof. by rewrite C_1feature unitmxE det_scalar1 unitfE. Qed.

(** With one feature the solve is a division:
    [w = (sum x_i y_i) / (l + sum x_i^2)]. *)
Lemma ridge_fit_1feature (self : object F) X y l (g : RandomState F) :
  l + \sum_i (X i 0) ^+ 2 != 0 ->
  RidgeRegression.fit self X y l g
  = (Ok (set_w self
           (((l + \sum_i (X i 0) ^+ 2)^-1 * \sum_i X i 0 * y i 0)%:M
              : 'cV[F]_1)), g).
Proof.
move=> nz; rewrite fit_unit ?C_1feature_unit //.
by rewrite C_1feature invmx_scalar moment_1feature -scalar_mxM.
Qed.

Lemma ridge_fit_1feature_singular (self : object F) X y l (g : RandomState F) :
  l + \sum_i (X i 0) ^+ 2 = 0 ->
  RidgeRegression.fit self X y l g = (Raise LinAlgError, g).
Proof.
by move=> z; rewrite fit_singular // C_1feature_unit z eqxx.
Qed.

End OneFeature.

(** The sums of the example data. *)
Lemma sumsq_X123 : \sum_i (X123 i 0) ^+ 2 = 14%:R.
Proof.
rewrite !big_ord_recl big_ord0 !mxE /= -[bump 0 0]/1%N -[bump 0 1]/2%N.
by ring.
Qed.

Lemma sumxy_123 : \sum_i X123 i 0 * y123 i 0 = 14%:R.
Proof.
rewrite !big_ord_recl big_ord0 !mxE /= -[bump 0 0]/1%N -[bump 0 1]/2%N.
by ring.
Qed.

(** The scenario of the specification, in exact arithmetic: at [l = 0]
    the fit of [y = [1,2,3]] on [X = [[1],[2],[3]]] is [w = [1]], and
    [predict] gives [y] back. *)
Example ridge_fit_123 :
  RidgeRegression.fit fresh X123 y123 0 zeros
  = (Ok (set_w fresh (1%:M : 'cV[rat]_1)), zeros)
  /\ RidgeRegression.predict (set_w fresh (1%:M : 'cV[rat]_1)) X123 = Ok y123.
Proof.
split.
  by rewrite ridge_fit_1feature ?sumsq_X123 ?sumxy_123 ?add0r ?mulVf.
by rewrite ridge_predict_set_w mulmx1.
Qed.

(** ** Negative regularization strength *)

Section NegativeLambda.

Variable F : realFieldType.
Variable BFGS : forall p : nat, Scipy.method F p.
Variables (n p : nat).
Implicit Types (self : object F) (X : 'M[F]_(n, p)) (y : 'cV[F]_n) (l : F).
Implicit Types (g : RandomState F).

(** C3, as the code has it. Neither [fit] looks at the sign of the
    regularization strength. For [l < 0], [RidgeRegression.fit] solves the
    same equations: it stores [(l I + X^T X)^-1 X^T y] when that matrix is
    invertible and raises the singular-matrix error otherwise;
    [LassoRegression.fit] runs the optimizer on its objective and stores
    the solution of the run. *)
Theorem fit_accepts_negative_lambda self X y l g :
  l < 0 ->
  (RidgeRegression.fit self X y l g).1
  = (if RidgeRegression.C X l \in unitmx
     then Ok (set_w self (invmx (RidgeRegression.C X l) *m (X^T *m y)))
     else Raise LinAlgError)
  /\ exists res,
       (Scipy.minimize (fun w => Ok (LassoRegression.func w y X l))
          (\col_(i < p) g i) (@BFGS p) None).2 = Ok res
       /\ (LassoRegression.fit BFGS self X y l g).1
          = Ok (set_w self (Scipy.x res)).
Proof.
move=> _; split.
  case: (boolP (_ \in unitmx)) => Cu; first by rewrite fit_unit.
  by rewrite fit_singular.
have [res [Hres ->]] := lasso_fit_returns BFGS self X y l g.
by exists res.
Qed.

End NegativeLambda.

Lemma ridge_fit_123_neg :
  RidgeRegression.fit fresh X123 y123 (-1) zeros
  = (Ok (set_w fresh ((14%:R / 13%:R)%:M : 'cV[rat]_1)), zeros).
Proof.
by rewrite ridge_fit_1feature ?sumsq_X123 ?sumxy_123.
Qed.

Lemma lasso_fit_stay (n p : nat) (self : object rat)
    (X : 'M[rat]_(n, p)) (y : 'cV[rat]_n) (lam : rat) (g : RandomState rat) :
  LassoRegression.fit (@stay rat) self X y lam g
  = (Ok (set_w self (\col_(i < p) g i)), fun k => g (p + k)%N).
Proof. by []. Qed.

(** C3 fails on the code: with [l = -1], on [X = [[1],[2],[3]]] and
    [y = [1,2,3]], [RidgeRegression.fit] returns [w = [14/13]] and
    [LassoRegression.fit] returns the solution of its run. *)
Lemma negative_lambda_accepted :
  ~ Specification.ridge_rejects_negative_lambda
  /\ ~ Specification.lasso_rejects_negative_lambda.
Proof.
split.
  move/(_ rat 3%N 1%N fresh X123 y123 (-1) zeros isT).
  by rewrite ridge_fit_123_neg.
move/(_ rat (@stay rat) 3%N 1%N fresh X123 y123 (-1) zeros isT).
by rewrite lasso_fit_stay.
Qed.

(** The same data at [l = -1]. *)
Lemma fit_accepts_negative_lambda_witness :
  (-1 : rat) < 0
  /\ ((RidgeRegression.fit fresh X123 y123 (-1) zeros).1
      = (if RidgeRegression.C X123 (-1) \in unitmx
         then Ok (set_w fresh
                    (invmx (RidgeRegression.C X123 (-1)) *m (X123^T *m y123)))
         else Raise LinAlgError)
      /\ exists res,
           (Scipy.minimize (fun w => Ok (LassoRegression.func w y123 X123 (-1)))
              (\col_(i < 1) zeros i) (@stay rat 1) None).2 = Ok res
           /\ (LassoRegression.fit (@stay rat) fresh X123 y123 (-1) zeros).1
              = Ok (set_w fresh (Scipy.x res))).
Proof.
split; first by [].
exact: (@fit_accepts_negative_lambda rat (@stay rat) 3 1 fresh X123 y123 (-1)
          zeros isT).
Defined.

(** ** The fitted vector across calls *)

Section Overwrite.

Variable F : realFieldType.
Variable BFGS : forall p : nat, Scipy.method F p.
Variables (n p : nat).
Implicit Types (self : object F) (X : 'M[F]_(n, p)) (y : 'cV[F]_n) (l : F).
Implicit Types (g : RandomState F).

(** C9, as the code has it. Every successful [fit] assigns [self.w]
    afresh: the new [w] is the vector computed from the arguments of that
    call, whatever [w] the object held before, and [predict] multiplies by
    the [w] of the most recent successful [fit]. *)
Theorem fit_overwrites_w :
  (forall self X y l g s g',
     RidgeRegression.fit self X y l g = (Ok s, g') ->
     w s = Some (existT _ p (invmx (RidgeRegression.C X l) *m (X^T *m y)))
     /\ forall (m : nat) (X' : 'M[F]_(m, p)),
          RidgeRegression.predict s X'
          = Ok (X' *m (invmx (RidgeRegression.C X l) *m (X^T *m y))))
  /\ (forall self X y l g s g',
        LassoRegression.fit BFGS self X y l g = (Ok s, g') ->
        exists res,
          [/\ (Scipy.minimize (fun w => Ok (LassoRegression.func w y X l))
                 (\col_(i < p) g i) (@BFGS p) None).2 = Ok res,
              w s = Some (existT _ p (Scipy.x res))
            & forall (m : nat) (X' : 'M[F]_(m, p)),
                LassoRegression.predict s X' = Ok (X' *m Scipy.x res)]).
Proof.
split=> self X y l g s g'.
  case: (boolP (RidgeRegression.C X l \in unitmx)) => Cu.
    rewrite fit_unit // => -[<- _]; split=> // m X'.
    exact: ridge_predict_set_w.
  by rewrite fit_singular.
have [res [Hres ->]] := lasso_fit_returns BFGS self X y l g.
case=> <- _; exists res; split=> // m X'.
exact: lasso_predict_set_w.
Qed.

End Overwrite.

Lemma ridge_fit_X1 (self : object rat) (y : 'cV[rat]_1) (g : RandomState rat) :
  RidgeRegression.fit self X1 y 0 g = (Ok (set_w self y), g).
Proof.
rewrite ridge_fit_1feature !big_ord1 !mxE ?add0r ?expr1n ?invr1 ?mul1r //.
by rewrite -mx11_scalar.
Qed.

(** C9 fails on the code: a second [fit] replaces [w]. On
    [X = [[1]]], the ridge fit of [y = [1]] stores [w = [1]] and the
    following fit of [y = [2]] stores [w = [2]]; the lasso estimator,
    fitted twice on the same data, stores the two successive draws [0]
    and [1/2] of the generator when the optimizer stays at its start. *)
Lemma second_fit_replaces_w :
  ~ Specification.ridge_w_immutable /\ ~ Specification.lasso_w_immutable.
Proof.
split.
  move/(_ rat 1%N 1%N fresh (set_w fresh y1) (set_w (set_w fresh y1) y2)
          X1 X1 y1 y2 0 0 zeros zeros zeros).
  rewrite !ridge_fit_X1 => /(_ erefl erefl) /set_w_inj /matrixP /(_ 0 0).
  by rewrite !mxE.
move/(_ rat (@stay rat) 1%N 1%N fresh
        (set_w fresh (\col_(i < 1) flip i))
        (set_w (set_w fresh (\col_(i < 1) flip i))
               (\col_(i < 1) flip (1 + i)%N))
        X1 X1 y1 y1 1 1 flip (fun k => flip (1 + k)%N)
        (fun k => flip (1 + (1 + k))%N) erefl erefl).
by move=> /set_w_inj /matrixP /(_ 0 0); rewrite !mxE.
Qed.

(** A second fit on an estimator that already holds [w = [1]], and a
    lasso fit from the generator [flip]. *)
Lemma fit_overwrites_w_witness :
  (RidgeRegression.fit (set_w fresh y1) X1 y2 0 zeros
   = (Ok (set_w (set_w fresh y1) y2), zeros)
   /\ (w (set_w (set_w fresh y1) y2)
       = Some (existT _ 1%N (invmx (RidgeRegression.C X1 0) *m (X1^T *m y2)))
       /\ forall (m : nat) (X' : 'M[rat]_(m, 1)),
            RidgeRegression.predict (set_w (set_w fresh y1) y2) X'
            = Ok (X' *m (invmx (RidgeRegression.C X1 0) *m (X1^T *m y2)))))
  /\ (LassoRegression.fit (@stay rat) (set_w fresh y1) X1 y2 1 flip
      = (Ok (set_w (set_w fresh y1) (\col_(i < 1) flip i)),
         fun k => flip (1 + k)%N)
      /\ exists res,
           [/\ (Scipy.minimize (fun w => Ok (LassoRegression.func w y2 X1 1))
                  (\col_(i < 1) flip i) (@stay rat 1) None).2 = Ok res,
               w (set_w (set_w fresh y1) (\col_(i < 1) flip i))
               = Some (existT _ 1%N (Scipy.x res))
             & forall (m : nat) (X' : 'M[rat]_(m, 1)),
                 LassoRegression.predict
                   (set_w (set_w fresh y1) (\col_(i < 1) flip i)) X'
                 = Ok (X' *m Scipy.x res)]).
Proof.
have [Hr Hl] := @fit_overwrites_w rat (@stay rat) 1 1.
split; split.
- exact: ridge_fit_X1.
- exact: (Hr (set_w fresh y1) X1 y2 0 zeros _ zeros (ridge_fit_X1 _ _ _)).
- exact: lasso_fit_stay.
- exact: (Hl (set_w fresh y1) X1 y2 1 flip _ _ (lasso_fit_stay _ _ _ _ _)).
Defined.

(** ** Dependence of the lasso fit on the random generator *)

Section Nondeterminism.

Variable F : realFieldType.
Variable BFGS : forall p : nat, Scipy.method F p.

(** With no feature signal, no response and no penalty, the code's
    objective is flat. *)
Lemma func_flat (w : 'cV[F]_1) :
  LassoRegression.func w (0 : 'cV[F]_1) (0 : 'M[F]_(1, 1)) 0 = 0.
Proof.
by rewrite /LassoRegression.func mul0r addr0 big_ord1 mul0mx subr0 mxE expr0n.
Qed.

(** C10. [LassoRegression.fit] depends on the hidden state of the global
    random generator. On every call the initial guess handed to the
    optimizer is the vector of the next [p] draws, the stored [w] is the
    solution of the run from that guess, and the generator is left [p]
    draws further. Hence, for any optimization method that returns its
    starting point on a flat objective, there are inputs [X], [y], [lam]
    and two generator states, both producing draws of [[0, 1)], from
    which the two fits store different vectors [w]. *)
Theorem lasso_fit_nondeterministic (self : object F) :
  (forall (n p : nat) (X : 'M[F]_(n, p)) (y : 'cV[F]_n) (lam : F)
          (g : RandomState F),
     exists res,
       (Scipy.minimize (fun w => Ok (LassoRegression.func w y X lam))
          (\col_(i < p) g i) (@BFGS p) None).2 = Ok res
       /\ LassoRegression.fit BFGS self X y lam g
          = (Ok (set_w self (Scipy.x res)), fun k => g (p + k)%N))
  /\ ((forall x0 : 'cV[F]_1,
         exists2 res,
           (Scipy.minimize (fun=> Ok 0) x0 (@BFGS 1) None).2 = Ok res
           & Scipy.x res = x0) ->
      exists (X : 'M[F]_(1, 1)) (y : 'cV[F]_1) (lam : F)
             (g1 g2 : RandomState F) (s1 s2 : object F),
        [/\ forall k, 0 <= g1 k < 1,
            forall k, 0 <= g2 k < 1,
            (LassoRegression.fit BFGS self X y lam g1).1 = Ok s1,
            (LassoRegression.fit BFGS self X y lam g2).1 = Ok s2
          & w s1 <> w s2]).
Proof.
split=> [n p X y lam g|flat]; first exact: lasso_fit_returns.
pose g1 : RandomState F := fun=> 0.
pose g2 : RandomState F := fun=> 2%:R^-1.
have fitE (g : RandomState F) :
    (LassoRegression.fit BFGS self (0 : 'M[F]_(1, 1)) (0 : 'cV[F]_1) 0 g).1
    = Ok (set_w self (\col_(i < 1) g i)).
  have [res Hres xres] := flat (\col_(i < 1) g i).
  rewrite (@lasso_fitE _ _ _ _ _ _ _ _ _ res) ?xres //.
  by rewrite -Hres /Scipy.minimize; congr (_ .2); apply: eq_run => w;
     rewrite func_flat.
exists 0, 0, 0, g1, g2, (set_w self (\col_(i < 1) g1 i)),
       (set_w self (\col_(i < 1) g2 i)); split; rewrite ?fitE //.
- by move=> k; rewrite /g1 lexx ltr01.
- move=> k; rewrite /g2 invr_ge0 ler0n invf_lt1 ?ltr0n //.
  by rewrite ltr1n.
- move=> /set_w_inj /matrixP /(_ 0 0); rewrite !mxE /g1 /g2 => /esym /eqP.
  by rewrite invr_eq0 pnatr_eq0.
Qed.

End Nondeterminism.

(** An optimizer that stays at its start returns it on a flat objective. *)
Lemma lasso_fit_nondeterministic_witness :
  (forall x0 : 'cV[rat]_1,
     exists2 res,
       (Scipy.minimize (fun=> Ok 0) x0 (@stay rat 1) None).2 = Ok res
       & Scipy.x res = x0)
  /\ exists (X : 'M[rat]_(1, 1)) (y : 'cV[rat]_1) (lam : rat)
            (g1 g2 : RandomState rat) (s1 s2 : object rat),
       [/\ forall k, 0 <= g1 k < 1,
           forall k, 0 <= g2 k < 1,
           (LassoRegression.fit (@stay rat) fresh X y lam g1).1 = Ok s1,
           (LassoRegression.fit (@stay rat) fresh X y lam g2).1 = Ok s2
         & w s1 <> w s2].
Proof.
have flat (x0 : 'cV[rat]_1) :
    exists2 res,
      (Scipy.minimize (fun=> Ok 0) x0 (@stay rat 1) None).2 = Ok res
      & Scipy.x res = x0.
  by eexists; first by reflexivity.
split; first exact: flat.
exact: (proj2 (@lasso_fit_nondeterministic rat (@stay rat) fresh) flat).
Defined.

(** ** The singular-matrix failure *)

Section SingularFailure.

Variable F : realFieldType.
Variable inv : forall p : nat, 'M[F]_p -> result F 'M[F]_p.
Variables (n p : nat).
Implicit Types (self : object F) (X : 'M[F]_(n, p)) (y : 'cV[F]_n) (l : F).
Implicit Types (g : RandomState F).

(** [RidgeRegression.fit] is the method with the exact inverse for
    [np.linalg.inv]. *)
Lemma fit_lib_exact self X y l g :
  RidgeRegressionLib.fit (@Python.inv F) self X y l g
  = RidgeRegression.fit self X y l g.
Proof. by []. Qed.

(** On [X = [[1]]] at [l = -1] the matrix handed to [np.linalg.inv] is
    zero. *)
Lemma C_X1_neg : (-1) *: 1%:M + (1%:M)^T *m 1%:M = 0 :> 'M[F]_1.
Proof. by rewrite trmx1 mulmx1 scaleN1r addNr. Qed.

(** C4, as the code has it. [RidgeRegression.fit] has no test of its own
    on [l] or on the matrix: whatever [np.linalg.inv] does, [fit] raises
    exactly when [inv] raises on [l I + X^T X], with the same exception,
    and otherwise stores the matrix [inv] returned times [X^T y]. The
    failure is not confined to [l = 0]: on [X = [[1]]] at [l = -1] the
    matrix is zero, and [fit] raises the singular-matrix error as soon as
    [inv] does so on the zero matrix. *)
Theorem ridge_fit_fails_as_inv self X y l g :
  [/\ forall e, inv (l *: 1%:M + X^T *m X) = Raise e ->
        RidgeRegressionLib.fit inv self X y l g = (Raise e, g),
      forall M, inv (l *: 1%:M + X^T *m X) = Ok M ->
        RidgeRegressionLib.fit inv self X y l g
        = (Ok (set_w self (M *m (X^T *m y))), g)
    & forall z : 'cV[F]_1,
        inv (0 : 'M[F]_1) = Raise LinAlgError ->
        RidgeRegressionLib.fit inv self (1%:M : 'M[F]_1) z (-1) g
        = (Raise LinAlgError, g)].
Proof.
split=> [e inv_raises|M inv_returns|z inv0].
- by rewrite /RidgeRegressionLib.fit /bind /lift inv_raises.
- by rewrite /RidgeRegressionLib.fit /bind /lift /ret inv_returns.
- by rewrite /RidgeRegressionLib.fit /bind /lift C_X1_neg inv0.
Qed.

End SingularFailure.

Lemma ridge_fit_X1_neg :
  RidgeRegression.fit fresh X1 y1 (-1) zeros = (Raise LinAlgError, zeros).
Proof.
by apply: ridge_fit_1feature_singular; rewrite big_ord1 mxE expr1n addNr.
Qed.

(** C4 fails on the code: at [l = -1] on [X = [[1]]], [y = [1]] the matrix
    [l I + X^T X] is zero and [fit] raises the singular-matrix error,
    although [l] is not [0]. *)
Lemma ridge_fit_fails_at_negative_lambda :
  ~ Specification.ridge_fails_only_at_0.
Proof.
move/(_ rat 1%N 1%N fresh X1 y1 (-1) zeros) => [H _].
have [/eqP] := H (congr1 fst ridge_fit_X1_neg).
by rewrite oppr_eq0 oner_eq0.
Qed.

(** The exact inverse on [X = [[1]]]: it raises at [l = -1], returns at
    [l = 0], and raises on the zero matrix. *)
Lemma ridge_fit_fails_as_inv_witness :
  [/\ Python.inv ((-1) *: 1%:M + X1^T *m X1) = Raise LinAlgError
      /\ RidgeRegressionLib.fit (@Python.inv rat) fresh X1 y1 (-1) zeros
         = (Raise LinAlgError, zeros),
      Python.inv (0 *: 1%:M + X1^T *m X1)
      = Ok (invmx (0 *: 1%:M + X1^T *m X1))
      /\ RidgeRegressionLib.fit (@Python.inv rat) fresh X1 y1 0 zeros
         = (Ok (set_w fresh
                  (invmx (0 *: 1%:M + X1^T *m X1) *m (X1^T *m y1))), zeros)
    & Python.inv (0 : 'M[rat]_1) = Raise LinAlgError
      /\ RidgeRegressionLib.fit (@Python.inv rat) fresh (1%:M : 'M[rat]_1) y1
           (-1) zeros
         = (Raise LinAlgError, zeros)].
Proof.
have inv_raises :
    Python.inv ((-1) *: 1%:M + X1^T *m X1) = Raise (@LinAlgError rat).
  have := ridge_fit_X1_neg.
  rewrite /RidgeRegression.fit /RidgeRegression.C /bind /lift /=.
  by case: (Python.inv _) => [M|e] //= [->].
have inv_returns :
    Python.inv (0 *: 1%:M + X1^T *m X1)
    = Ok (invmx (0 *: 1%:M + X1^T *m X1)) :> result rat _.
  have Cu : RidgeRegression.C X1 0 \in unitmx.
    by rewrite C_1feature_unit big_ord1 mxE expr1n add0r oner_eq0.
  by rewrite /Python.inv -/(RidgeRegression.C X1 0) Cu.
have inv0 : Python.inv (0 : 'M[rat]_1) = Raise LinAlgError.
  by rewrite /Python.inv unitmxE det0 unitr0.
have [H1 _ _] := @ridge_fit_fails_as_inv rat (@Python.inv rat) 1 1 fresh X1 y1
                   (-1) zeros.
have [_ H2 H3] := @ridge_fit_fails_as_inv rat (@Python.inv rat) 1 1 fresh X1 y1
                    0 zeros.
split; split=> //.
- exact: (H1 LinAlgError inv_raises).
- exact: (H2 _ inv_returns).
- exact: (H3 y1 inv0).
Defined.

(** ** The Poisson maximum-likelihood cell *)

Section MLE.

Variable F : realFieldType.
Variable log : F -> F.
Implicit Types (meth : Scipy.method F 1) (Total : seq nat).

Local Notation lik_model := (MaximumLikelihoodEstimation.lik_model log).
Local Notation theta := (MaximumLikelihoodEstimation.theta log).
Local Notation log_likelihood := (MaximumLikelihoodEstimation.log_likelihood log).

(** [theta] is the first coordinate of the solution of the run. *)
Lemma thetaE meth Total res :
  (lik_model meth Total).2 = Ok res -> theta meth Total = Ok (Scipy.x res 0 0).
Proof. by rewrite /MaximumLikelihoodEstimation.theta => ->. Qed.

(** [probe] keeps to the bounds it is given. *)
Lemma probe_honours_bounds (t : F) : Scipy.honours_bounds (probe t).
Proof.
move=> b x0 f0 x0_in.
by rewrite /probe; case: ifP => //= t_in; split=> // v; case: ifP.
Qed.

(** Without bounds, the run of [probe t] on a non-empty sample evaluates
    the objective at the initial guess and at [t]. *)
Lemma probe_trace (t : F) (k : nat) Total :
  (lik_model (probe t) (k :: Total)).1 = [:: const_mx 3%:R; const_mx t].
Proof. by []. Qed.

(** C5. On the empty sequence of counts the computation of [theta] does
    not return an estimate: the very first evaluation of the objective,
    at the initial guess [3], raises the invalid-argument error
    ([ValueError], from the vectorized factorial), and the exception is
    the outcome of [minimize] and of the cell, whatever the method. *)
Theorem theta_empty meth :
  lik_model meth [::] = ([:: const_mx 3%:R], Raise ValueError)
  /\ theta meth [::] = Raise ValueError.
Proof. by []. Qed.

(** C7, as the code has it. [minimize] is called without [bounds]: the
    first evaluation of the objective is at the initial guess [3], and
    after it the objective is evaluated wherever the method asks, nothing
    being clamped. For every [t], also [t <= 0], a method that honours
    bounds whenever it is given some makes the run evaluate the
    negative log-likelihood at [theta = t]. *)
Theorem lik_model_unbounded :
  (forall meth Total,
     exists tr, (lik_model meth Total).1 = const_mx 3%:R :: tr)
  /\ (forall (t : F) (k : nat) Total,
        exists2 meth, Scipy.honours_bounds meth
          & (lik_model meth (k :: Total)).1
            = [:: const_mx 3%:R; const_mx t]).
Proof.
split=> [meth Total|t k Total]; first exact: minimize_starts_at_x0.
by exists (probe t); [exact: probe_honours_bounds | exact: probe_trace].
Qed.

(** C6, as the code has it. Both call sites read the solution [x] of the
    optimizer's result and nothing else: when the run reports
    non-success, [LassoRegression.fit] stores the last iterate as [w] and
    the likelihood cell takes its first coordinate as [theta]. No
    exception is raised. *)
Theorem nonconvergence_is_ignored (BFGS : forall p, Scipy.method F p) :
  (forall (n p : nat) (self : object F) (X : 'M[F]_(n, p)) (y : 'cV[F]_n)
          (lam : F) (g : RandomState F) (res : Scipy.OptimizeResult F p),
     (Scipy.minimize (fun w => Ok (LassoRegression.func w y X lam))
        (\col_(i < p) g i) (@BFGS p) None).2 = Ok res ->
     Scipy.success res = false ->
     (LassoRegression.fit BFGS self X y lam g).1
     = Ok (set_w self (Scipy.x res)))
  /\ (forall meth Total (res : Scipy.OptimizeResult F 1),
        (lik_model meth Total).2 = Ok res ->
        Scipy.success res = false ->
        theta meth Total = Ok (Scipy.x res 0 0)).
Proof.
split=> [n p self X y lam g res Hres _|meth Total res Hres _].
  by rewrite (lasso_fitE self Hres).
exact: thetaE.
Qed.

End MLE.

(** C7 fails on the code: on the counts [1,0,4,1,5], a method that
    honours bounds but tries [theta = -1] when it is given none has the
    objective evaluated at [3] and then at [-1]. *)
Lemma theta_leaves_positive_axis : ~ Specification.theta_stays_positive log0.
Proof.
move/(_ (probe (-1)) counts (probe_honours_bounds _)).
by rewrite probe_trace /= !mxE.
Qed.

(** C6 fails on the code: when the method gives up at once and reports
    non-success, the lasso fit on [X = [[1]]], [y = [1]], [lam = 1]
    stores the initial guess as [w], and the likelihood cell on the
    counts [1,0,4,1,5] returns the initial guess [3] as [theta]. *)
Lemma nonconvergence_accepted :
  ~ Specification.lasso_raises_on_nonconvergence
  /\ ~ Specification.mle_raises_on_nonconvergence log0.
Proof.
split.
  by move/(_ rat (@abandon rat) 1%N 1%N fresh X1 y1 1 zeros _ erefl erefl).
by move/(_ (@abandon rat 1) counts _ erefl erefl).
Qed.

(** The two call sites at work on an optimizer that gives up. *)
Lemma nonconvergence_is_ignored_witness :
  (LassoRegression.fit (@abandon rat) fresh X1 y1 1 zeros).1
  = Ok (set_w fresh (\col_(i < 1) zeros i))
  /\ MaximumLikelihoodEstimation.theta log0 (@abandon rat 1) counts
     = Ok ((const_mx 3%:R : 'cV[rat]_1) 0 0).
Proof.
have [Hl Hm] := nonconvergence_is_ignored log0 (@abandon rat).
split.
  exact: (Hl 1%N 1%N fresh X1 y1 1 zeros
            (Scipy.Build_OptimizeResult (\col_(i < 1) zeros i) false
               (LassoRegression.func (\col_(i < 1) zeros i) y1 X1 1) 0)
            erefl erefl).
exact: (Hm (@abandon rat 1) counts
          (Scipy.Build_OptimizeResult (const_mx 3%:R) false _ 0) erefl erefl).
Defined.

(** * Further properties of the notebooks *)

Section RidgeOutcome.

Variable F : realFieldType.
Variables (n p : nat).
Implicit Types (self : object F) (X : 'M[F]_(n, p)) (y : 'cV[F]_n) (l : F).
Implicit Types (g : RandomState F).

(** What a successful [fit] stores. *)
Lemma ridge_fit_OkE self X y l g s g' :
  RidgeRegression.fit self X y l g = (Ok s, g') ->
  [/\ RidgeRegression.C X l \in unitmx,
      s = set_w self (invmx (RidgeRegression.C X l) *m (X^T *m y))
    & g' = g].
Proof.
case: (boolP (RidgeRegression.C X l \in unitmx)) => Cu.
  by rewrite fit_unit // => -[<- <-].
by rewrite fit_singular.
Qed.

End RidgeOutcome.

(** The example data at [l = 1]: the fit succeeds. *)
Lemma ridge_fit_123_1 :
  RidgeRegression.fit fresh X123 y123 1 zeros
  = (Ok (set_w fresh
           (invmx (RidgeRegression.C X123 1) *m (X123^T *m y123))), zeros).
Proof. by apply: fit_unit; apply: C_unit. Qed.

(** ** Predictions *)

Section Predict.

Variable F : realFieldType.
Variable BFGS : forall p : nat, Scipy.method F p.

Lemma dot_mismatch (m q p : nat) (X' : 'M[F]_(m, q)) (v : 'cV[F]_p) :
  q != p -> dot X' (existT _ p v) = Raise ValueError.
Proof. by rewrite /dot; case: eqP. Qed.

(** X5. [predict] on an estimator that was never fitted raises
    [AttributeError]; after a successful [fit] on [p] features, [predict]
    on a matrix with another number of columns raises [ValueError].
    Both classes behave alike. *)
Theorem predict_raises :
  (forall (m q : nat) (X' : 'M[F]_(m, q)),
     RidgeRegression.predict (Object None) X' = Raise AttributeError
     /\ LassoRegression.predict (Object None) X' = Raise AttributeError)
  /\ (forall (n p m q : nat) (self s : object F) (X : 'M[F]_(n, p))
             (y : 'cV[F]_n) (l : F) (g g' : RandomState F)
             (X' : 'M[F]_(m, q)),
        q != p ->
        (RidgeRegression.fit self X y l g = (Ok s, g') ->
         RidgeRegression.predict s X' = Raise ValueError)
        /\ (LassoRegression.fit BFGS self X y l g = (Ok s, g') ->
            LassoRegression.predict s X' = Raise ValueError)).
Proof.
split=> [m q X'|n p m q self s X y l g g' X' qp] //; split.
  by move=> /ridge_fit_OkE [_ -> _]; apply: dot_mismatch.
have [res [_ ->]] := lasso_fit_returns BFGS self X y l g.
by case=> <- _; apply: dot_mismatch.
Qed.

End Predict.

Lemma predict_raises_witness :
  RidgeRegression.predict
    (set_w fresh (invmx (RidgeRegression.C X123 1) *m (X123^T *m y123)))
    (0 : 'M[rat]_(2, 3)) = Raise ValueError
  /\ LassoRegression.predict (set_w fresh (\col_(i < 1) zeros i))
       (0 : 'M[rat]_(2, 3)) = Raise ValueError.
Proof.
have [_ H] := predict_raises (@stay rat).
split.
  exact: (proj1 (H 3%N 1%N 2%N 3%N fresh _ X123 y123 1 zeros zeros 0 isT)
            ridge_fit_123_1).
exact: (proj2 (H 3%N 1%N 2%N 3%N fresh _ X123 y123 1 zeros _ 0 isT)
          (lasso_fit_stay _ _ _ _ _)).
Defined.

(** ** The split into training and test rows *)

Section Split.

Variable F : realFieldType.

Lemma zip_mask (S T : Type) (m : bitseq) (s : seq S) (t : seq T) :
  zip (mask m s) (mask m t) = mask m (zip s t).
Proof.
elim: m s t => [|b m IH] [|x s] [|z t] //=; rewrite ?mask0 //.
- by case: b => //=; case: (mask m t).
- by case: b => //=; case: (mask m s).
- by case: b; rewrite /= IH.
Qed.

Lemma perm_mask_negb (T : eqType) (m : bitseq) (s : seq T) :
  size m = size s -> perm_eq (mask m s ++ mask [seq ~~ b | b <- m] s) s.
Proof.
elim: m s => [|b m IH] [|x s] //= [] /IH {}IH.
case: b => /=; first by rewrite perm_cons.
by rewrite perm_catC /= perm_cons perm_catC.
Qed.

Lemma size_msk (n : nat) (g : RandomState F) :
  exists m, RidgeNotebook.msk n g = (Ok m, fun k => g (n + k)%N)
            /\ size m = n.
Proof.
eexists; split; first by reflexivity.
by rewrite size_map size_enum_ord.
Qed.

(** X8. The split cell puts every row of the data frame in exactly one of
    the two sets and keeps each row's [SalePrice] with its explanatory
    columns: the training pairs followed by the test pairs are a
    permutation of the rows. It consumes [len(df)] draws of the
    generator. *)
Theorem train_test_partition (p : nat) (df : seq (RidgeNotebook.row F p))
    (g : RandomState F) :
  exists sp : RidgeNotebook.split F p,
    [/\ RidgeNotebook.train_test df g = (Ok sp, fun k => g (size df + k)%N),
        size (RidgeNotebook.X_train sp) = size (RidgeNotebook.y_train sp),
        size (RidgeNotebook.X_test sp) = size (RidgeNotebook.y_test sp),
        (size (RidgeNotebook.X_train sp) + size (RidgeNotebook.X_test sp)
         = size df)%N
      & perm_eq (zip (RidgeNotebook.X_train sp) (RidgeNotebook.y_train sp)
                 ++ zip (RidgeNotebook.X_test sp) (RidgeNotebook.y_test sp))
                df].
Proof.
have [m [Hm sz_m]] := size_msk (size df) g.
eexists; split.
- by rewrite /RidgeNotebook.train_test /bind Hm /ret.
- by rewrite /= !size_mask ?size_map.
- by rewrite /= !size_mask ?size_map.
- rewrite /= !size_mask ?size_map // count_map.
  by rewrite -sz_m -(count_predC id m).
- rewrite /= !zip_mask -/(unzip1 df) -/(unzip2 df) zip_unzip.
  exact: perm_mask_negb.
Qed.

End Split.

(** ** The lasso objective has no lower bound *)

Section LassoUnbounded.

Variable F : realFieldType.
Variables (n p : nat).

(** X9. Along a direction [d] that the features do not see ([X d = 0])
    and whose coefficients do not sum to zero, the objective handed to the
    optimizer decreases without bound when [lam] is not zero: it takes
    values below any given number, so it has no minimizer. *)
Theorem lasso_objective_unbounded (X : 'M[F]_(n, p)) (y : 'cV[F]_n) (lam : F)
    (d : 'cV[F]_p) (M : F) :
  X *m d = 0 -> lam * \sum_j d j 0 != 0 ->
  exists w : 'cV[F]_p, LassoRegression.func w y X lam < M.
Proof.
move=> Xd0 nz.
pose t := (M - \sum_i (y i 0) ^+ 2 - 1) / (lam * \sum_j d j 0).
exists (t *: d); rewrite /LassoRegression.func -scalemxAr Xd0 scaler0 subr0.
have E j : (t *: d) j 0 = t * d j 0 by rewrite mxE.
rewrite (eq_bigr _ (fun j _ => E j)).
rewrite -mulr_sumr mulrCA /t divfK //.
by set S := \sum_i _; lra.
Qed.

End LassoUnbounded.

Lemma lasso_objective_unbounded_witness :
  (0 : 'M[rat]_(1, 1)) *m (const_mx 1 : 'cV[rat]_1) = 0
  /\ (1 : rat) * \sum_j (const_mx 1 : 'cV[rat]_1) j 0 != 0
  /\ exists w : 'cV[rat]_1, LassoRegression.func w y1 0 1 < 0.
Proof.
have H1 : (0 : 'M[rat]_(1, 1)) *m (const_mx 1 : 'cV[rat]_1) = 0.
  by rewrite mul0mx.
have H2 : (1 : rat) * \sum_j (const_mx 1 : 'cV[rat]_1) j 0 != 0.
  by rewrite big_ord1 mxE mulr1 oner_eq0.
split; first exact: H1.
split; first exact: H2.
exact: (lasso_objective_unbounded y1 0 H1 H2).
Defined.

(** ** The negative log-likelihood *)

Section LogLikelihood.

Variable F : realFieldType.
Variable log : F -> F.
Implicit Types (meth : Scipy.method F 1) (x : seq nat) (th : 'cV[F]_1).

Local Notation lik_model := (MaximumLikelihoodEstimation.lik_model log).
Local Notation theta := (MaximumLikelihoodEstimation.theta log).
Local Notation log_likelihood := (MaximumLikelihoodEstimation.log_likelihood log).
Local Notation f := MaximumLikelihoodEstimation.f.

(** The value of the objective on a sample that is not empty. *)
Lemma log_likelihood_consE th (k : nat) x :
  log_likelihood th (k :: x)
  = Ok ((size (k :: x))%:R * th 0 0
        - (\sum_(j <- k :: x) j)%:R * log (th 0 0)
        + \sum_(j <- k :: x) log (f j)%:R).
Proof.
rewrite /MaximumLikelihoodEstimation.log_likelihood /=; congr (Ok (_ + _)).
by rewrite -(big_map f predT (fun j => log j%:R)).
Qed.

(** X11. On samples whose counts are at most [20], so that every
    factorial fits the 64-bit integers of the vectorized [f], the cell
    that computes [theta] raises on the empty sample only: on every other
    such sample, whatever the optimization method and whatever points it
    tries, the run ends with a result and [theta] is the first coordinate
    of its solution. *)
Theorem theta_defined meth x :
  all (fun k => (k <= 20)%N) x ->
  match x with
  | [::] => theta meth x = Raise ValueError
  | _ :: _ =>
      exists res, (lik_model meth x).2 = Ok res
                  /\ theta meth x = Ok (Scipy.x res 0 0)
  end.
Proof.
case: x => [|k x] // _.
pose h th := (size (k :: x))%:R * th 0 0
             - (\sum_(j <- k :: x) j)%:R * log (th 0 0)
             + \sum_(j <- k :: x) log (f j)%:R.
have [res Hres] := minimize_total h (const_mx 3%:R) meth None.
have Hlik : (lik_model meth (k :: x)).2 = Ok res.
  rewrite -Hres /MaximumLikelihoodEstimation.lik_model /Scipy.minimize.
  by congr (_ .2); apply: eq_run => th; rewrite log_likelihood_consE.
by exists res; split=> //; apply: thetaE.
Qed.

End LogLikelihood.

(** The goals of the scenario are all below the bound. *)
Lemma theta_defined_witness :
  all (fun k => (k <= 20)%N) counts
  /\ exists res,
       (MaximumLikelihoodEstimation.lik_model log0 (@stay rat 1) counts).2
       = Ok res
       /\ MaximumLikelihoodEstimation.theta log0 (@stay rat 1) counts
          = Ok (Scipy.x res 0 0).
Proof.
split; first by [].
exact: (@theta_defined rat log0 (@stay rat 1) counts isT).
Defined.
